(** * InsectScanner backend: the identification queue, its worker and its routes

    A shallow embedding of
      - src/workers/insect.worker.ts   (the job processor and the worker options),
      - the queue module held in src/services/firebase.services.ts
        (queue options, [addInsectIdentificationJob], [getJobStatus]),
      - src/routes/insect.routes.ts    (POST /identify, GET /status/:jobId),
      - src/config/redis.config.ts     (the options of the broker connection),
    together with the parts of the JavaScript platform and of the queue
    library that these files call. *)

From Stdlib Require Import ZArith Strings.Byte Strings.String.
From stdpp Require Import base option list strings gmap pretty sorting.

Set Warnings "-register-all".
Local Open Scope string_scope.
Local Open Scope Z_scope.

(** ** JavaScript values and errors *)

Module Js.

(** The values a job payload field can hold at run time: what [JSON.parse]
    builds, [undefined] for a missing field, and a native [Buffer].
    Numbers are the integer-valued ones; a string is held as its UTF-8
    bytes. *)
Inductive value : Type :=
| Undefined
| Null
| Bool (b : bool)
| Num (n : Z)
| Str (s : string)
| Arr (xs : list value)
| Obj (fields : list (string * value))
| Buf (bytes : list byte).

(** A thrown error: [err.name] and [err.message]. *)
Record error : Type := mkError { name : string; message : string }.

Definition Error (msg : string) : error := mkError "Error" msg.
Definition TypeError (msg : string) : error := mkError "TypeError" msg.

(** [!!v] *)
Definition truthy (v : value) : bool :=
  match v with
  | Undefined | Null => false
  | Bool b => b
  | Num n => negb (n =? 0)
  | Str s => negb (String.eqb s "")
  | Arr _ | Obj _ | Buf _ => true
  end.

(** Own-property lookup in a parsed object, which holds each key once; a
    missing key reads as [undefined]. *)
Fixpoint lookup_field (k : string) (fields : list (string * value)) : value :=
  match fields with
  | [] => Undefined
  | (k', v) :: rest => if String.eqb k k' then v else lookup_field k rest
  end.

(** [v.k] for a value [v] that is not nullish, and a key [k] that no
    prototype of a parsed value defines (here: [type], [data]). *)
Definition get (v : value) (k : string) : value :=
  match v with
  | Obj fields => lookup_field k fields
  | _ => Undefined
  end.

(** [Array.isArray(v)] *)
Definition isArray (v : value) : bool :=
  match v with Arr _ => true | _ => false end.

(** [a === b] against a string literal. *)
Definition strictEqStr (v : value) (s : string) : bool :=
  match v with Str s' => String.eqb s' s | _ => false end.

(** What the platform decides and this development leaves open: the
    number [ToNumber] gives for a string or an object (as an integer, NaN
    being 0 for what follows), and the text of the [ERR_INVALID_ARG_TYPE]
    message for a rejected argument. *)
Record platform : Type := mkPlatform {
  ToNumber : value -> Z;
  invalid_arg_message : value -> string
}.

(** [z mod 256] as a byte: the conversion a [Uint8Array] applies on store. *)
Definition byte_of_Z (z : Z) : byte :=
  match Byte.of_N (Z.to_N (z mod 256)) with
  | Some b => b
  | None => Byte.x00
  end.

Definition Z_of_byte (b : byte) : Z := Z.of_N (Byte.to_N b).

Section Buffer.
Variable P : platform.

(** The byte stored for an array element: [ToNumber] then wrap to 8 bits. *)
Definition toUint8 (v : value) : byte :=
  match v with
  | Num n => byte_of_Z n
  | Bool true => byte_of_Z 1
  | Bool false | Null | Undefined => byte_of_Z 0
  | Str _ | Arr _ | Obj _ | Buf _ => byte_of_Z (ToNumber P v)
  end.

(** [fromArrayLike] over an array. *)
Definition fromArray (xs : list value) : list byte := toUint8 <$> xs.

(** [fromArrayLike] over an object with a numeric [length]: the
    elements are read under the keys "0", "1", ... *)
Definition fromArrayLikeObject (len : Z) (fields : list (string * value)) : list byte :=
  (fun i : nat => toUint8 (lookup_field (pretty i) fields)) <$> seq 0 (Z.to_nat len).

(** [fromObject] of node's lib/buffer.js, for a parsed object. *)
Definition fromObject (fields : list (string * value)) : option (list byte) :=
  match lookup_field "length" fields with
  | Undefined =>
      if strictEqStr (lookup_field "type" fields) "Buffer"
      then match lookup_field "data" fields with
           | Arr xs => Some (fromArray xs)
           | _ => None
           end
      else None
  | Num len => Some (fromArrayLikeObject len fields)
  | _ => Some []
  end.

(** [Buffer.from(value)] with a single argument. *)
Definition Buffer_from (v : value) : error + list byte :=
  match v with
  | Str s => inr (list_byte_of_string s)
  | Buf bytes => inr bytes
  | Arr xs => inr (fromArray xs)
  | Obj fields =>
      let rejected := inl (TypeError (invalid_arg_message P v)) in
      let viaFromObject :=
        match fromObject fields with
        | Some b => inr b
        | None => rejected
        end in
      match lookup_field "valueOf" fields with
      | Undefined | Null | Bool false => viaFromObject
      | Str s => if String.eqb s "" then inr [] else
                   inl (TypeError "value.valueOf is not a function")
      | Num n => if n =? 0 then viaFromObject else
                   inl (TypeError "value.valueOf is not a function")
      | _ => inl (TypeError "value.valueOf is not a function")
      end
  | Undefined | Null | Bool _ | Num _ =>
      inl (TypeError (invalid_arg_message P v))
  end.
End Buffer.

(** [Buffer.prototype.toJSON]: the form [JSON.stringify] writes for a
    buffer, and [JSON.parse] reads back as a plain object. *)
Definition Buffer_toJSON (bytes : list byte) : value :=
  Obj [("type", Str "Buffer"); ("data", Arr ((fun b => Num (Z_of_byte b)) <$> bytes))].

End Js.

(** ** Computations that throw and that update a state *)

Module Eff.

(** A function body over a state [S]: it ends in a value or stops with an
    [E], and leaves a state either way. *)
Definition M (E S A : Type) : Type := S -> (E + A) * S.

Definition ret {E S A} (a : A) : M E S A := fun s => (inr a, s).

Definition bind {E S A B} (m : M E S A) (k : A -> M E S B) : M E S B :=
  fun s => match m s with
           | (inr a, s') => k a s'
           | (inl e, s') => (inl e, s')
           end.

Definition gets {E S A} (f : S -> A) : M E S A := fun s => (inr (f s), s).
Definition modify {E S} (f : S -> S) : M E S unit := fun s => (inr tt, f s).

(** A pure step that may stop. *)
Definition lift {E S A} (r : E + A) : M E S A := fun s => (r, s).

(** How an [async] body that sends commands to the broker stops short of a
    value: it throws, or it awaits a command that is not answered. *)
Inductive halt : Type :=
| Threw (e : Js.error)
| Awaits.

(** [try { m } catch (error) { handler error }] *)
Definition try_catch {S A} (m : M halt S A) (handler : Js.error -> M halt S A)
  : M halt S A :=
  fun s => match m s with
           | (inl (Threw e), s') => handler e s'
           | r => r
           end.

(** The sequencing notations [x ← m; k] and [m;; k] for such bodies. *)
#[global] Instance M_ret {E S} : MRet (M E S) := fun A a => ret a.
#[global] Instance M_bind {E S} : MBind (M E S) := fun A B k m => bind m k.

End Eff.

(** ** The queue library: jobs, their options and their life cycle *)

Module Bull.

Inductive BackoffType : Type := fixed | exponential.

Record BackoffOptions : Type := mkBackoff { type : BackoffType; delay : Z }.

(** [KeepJobs]: [age] in seconds, [count] in jobs. *)
Record KeepJobs : Type := mkKeep { age : option Z; count : option Z }.

(** The job options this repository sets; a field left out is [None]. *)
Record JobsOptions : Type := mkOpts {
  attempts : option Z;
  backoff : option BackoffOptions;
  removeOnComplete : option KeepJobs;
  removeOnFail : option KeepJobs;
  jobId : option string
}.

(** [{ ...defaults, ...opts }] *)
Definition mergeOpts (defaults opts : JobsOptions) : JobsOptions :=
  {| attempts := from_option Some (attempts defaults) (attempts opts);
     backoff := from_option Some (backoff defaults) (backoff opts);
     removeOnComplete := from_option Some (removeOnComplete defaults) (removeOnComplete opts);
     removeOnFail := from_option Some (removeOnFail defaults) (removeOnFail opts);
     jobId := from_option Some (jobId defaults) (jobId opts) |}.

(** [InsectIdentificationJobData], over what [imageBuffer] holds: a native
    buffer where the route builds it, and whatever the stored JSON parses
    to where the worker reads it. *)
Record InsectIdentificationJobData (B : Type) : Type := mkData {
  imageBuffer : B;
  imageMimetype : string;
  imageOriginalName : string;
  userId : option string
}.
Arguments mkData {B}.
Arguments imageBuffer {B}.
Arguments imageMimetype {B}.
Arguments imageOriginalName {B}.
Arguments userId {B}.

(** [InsectIdentificationResponse], the value [identifyInsect] resolves to. *)
Record InsectIdentificationResponse : Type := mkResponse {
  insect_id : string;
  insect_name : string;
  scientificName : string;
  description : string;
  imageUrl : string;
  confidence : Js.value;
  location : Js.value;
  detectedAt : Js.value;
  createdAt : Js.value
}.

(** Where the broker holds a job; a delayed job carries the time at
    which it becomes ready again. *)
Inductive JobState : Type :=
| Waiting
| Active
| Delayed (until : Z)
| Completed
| Failed.

(** What [job.getState()] answers. *)
Definition stateName (s : JobState) : string :=
  match s with
  | Waiting => "waiting"
  | Active => "active"
  | Delayed _ => "delayed"
  | Completed => "completed"
  | Failed => "failed"
  end.

(** The fields of a [Job] that this repository reads or that the life
    cycle below updates. [returnvalue] is [null] and [failedReason] is
    [undefined] until set: both read [None]. *)
Record Job : Type := mkJob {
  id : string;
  name : string;
  data : InsectIdentificationJobData Js.value;
  opts : JobsOptions;
  progress : Z;
  returnvalue : option InsectIdentificationResponse;
  failedReason : option string;
  attemptsMade : Z;
  timestamp : Z;
  processedOn : option Z;
  finishedOn : option Z;
  state : JobState
}.

Definition setProgress (p : Z) (j : Job) : Job :=
  mkJob (id j) (name j) (data j) (opts j) p (returnvalue j) (failedReason j)
        (attemptsMade j) (timestamp j) (processedOn j) (finishedOn j) (state j).

(** What the queue writes for the job data: [JSON.stringify] turns the
    buffer into its tagged form, and the worker's [JSON.parse] reads that
    back as a plain object. *)
Definition serialize (d : InsectIdentificationJobData (list byte))
  : InsectIdentificationJobData Js.value :=
  mkData (Js.Buffer_toJSON (imageBuffer d)) (imageMimetype d) (imageOriginalName d) (userId d).

(** *** The life cycle of one job: what the broker does around an attempt.
    The queue library runs these transitions; the repository configures
    them through the job options and does not contain them. *)

(** Modelled from the spec: the backoff of section 4.1, as the library's
    [Backoffs.calculate] computes it for the built-in strategies: none
    without a backoff option, the delay itself when fixed, and
    [2 ^ (attemptsMade - 1) * delay] when exponential. [attemptsMade] counts
    the attempt that just failed, so it is at least 1. *)
Definition calculateBackoff (b : option BackoffOptions) (attemptsMade : Z) : Z :=
  match b with
  | None => 0
  | Some b =>
      match type b with
      | fixed => delay b
      | exponential => 2 ^ (attemptsMade - 1) * delay b
      end
  end.

(** Modelled from the spec: the transition WAITING -> ACTIVE of section 4.3.
    A worker claims the job at [now]: the attempt is counted, the start time
    is set or refreshed, and the progress starts at 0. *)
Definition moveToActive (now : Z) (j : Job) : Job :=
  mkJob (id j) (name j) (data j) (opts j) 0 (returnvalue j) (failedReason j)
        (attemptsMade j + 1) (timestamp j) (Some now) (finishedOn j) Active.

(** Modelled from the spec: the transition ACTIVE -> COMPLETED of section
    4.3. The processor returned [r] at [now]: the result is stored and the
    finishing time set. The progress is what the processor last reported. *)
Definition moveToCompleted (r : InsectIdentificationResponse) (now : Z) (j : Job) : Job :=
  mkJob (id j) (name j) (data j) (opts j) (progress j) (Some r) (failedReason j)
        (attemptsMade j) (timestamp j) (processedOn j) (Some now) Completed.

(** Modelled from the spec: the retry test of section 4.3, attempts made
    against the maximum of the job options; without a maximum no attempt is
    retried. *)
Definition shouldRetry (j : Job) : bool :=
  match attempts (opts j) with
  | Some n => attemptsMade j <? n
  | None => false
  end.

(** Modelled from the spec: the transitions ACTIVE -> DELAYED and
    ACTIVE -> FAILED of section 4.3. The processor threw [e] at [now]. While
    attempts remain the job is delayed by its backoff (or waits again at
    once, without one); otherwise it is failed and its finishing time set.
    Section 4.3 names the failure reason for the final failure only and says
    nothing of it for a retried attempt: there this follows the library's
    [Job.moveToFailed], which stores the message of the error as
    [failedReason] before it decides on the retry, and which nothing
    clears. *)
Definition moveToFailed (e : Js.error) (now : Z) (j : Job) : Job :=
  let reason := Some (Js.message e) in
  if shouldRetry j then
    let d := calculateBackoff (backoff (opts j)) (attemptsMade j) in
    mkJob (id j) (name j) (data j) (opts j) (progress j) (returnvalue j) reason
          (attemptsMade j) (timestamp j) (processedOn j) (finishedOn j)
          (if 0 <? d then Delayed (now + d) else Waiting)
  else
    mkJob (id j) (name j) (data j) (opts j) (progress j) (returnvalue j) reason
          (attemptsMade j) (timestamp j) (processedOn j) (Some now) Failed.

(** How the broker settles an attempt: by what the processor returned or
    threw. *)
Definition settle (outcome : Js.error + InsectIdentificationResponse) (now : Z) (j : Job) : Job :=
  match outcome with
  | inr r => moveToCompleted r now j
  | inl e => moveToFailed e now j
  end.

(** A job as [Queue.add] creates it. *)
Definition newJob (jid name : string) (d : InsectIdentificationJobData (list byte))
    (o : JobsOptions) (now : Z) : Job :=
  mkJob jid name (serialize d) o 0 None None 0 now None None Waiting.

End Bull.

(** ** src/workers/insect.worker.ts *)

Module Worker.
Import Eff.

(** [Express.Multer.File] *)
Record MulterFile : Type := mkFile {
  fieldname : string;
  originalname : string;
  encoding : string;
  mimetype : string;
  buffer : list byte;
  size : Z;
  destination : string;
  filename : string;
  path : string
}.

(** [InsectIdentificationRequest] *)
Record InsectIdentificationRequest : Type := mkRequest {
  image : MulterFile;
  userId : option string
}.

(** The stages of an attempt, recorded in the order in which the processor
    reaches them. *)
Inductive Event : Type :=
| Progress (p : Z)
| Decode (wire : Js.value)
| Classify (request : InsectIdentificationRequest).

(** An attempt in flight: the job it holds and what it did so far. *)
Record Attempt : Type := mkAttempt { job : Bull.Job; trace : list Event }.

Definition log (e : Event) : M Js.error Attempt unit :=
  modify (fun a => mkAttempt (job a) (trace a ++ [e])).

(** [await job.updateProgress(p)], answered by the broker through which the
    worker holds the job. *)
Definition updateProgress (p : Z) : M Js.error Attempt unit :=
  modify (fun a => mkAttempt (Bull.setProgress p (job a)) (trace a ++ [Progress p])).

(** [InsectService.identifyInsect]: the classification capability. Its
    body calls the model provider, the object store and the record store;
    here it is what those calls make of a request on one attempt. *)
Definition Classifier : Type :=
  InsectIdentificationRequest -> Js.error + Bull.InsectIdentificationResponse.

Section Processor.
Variable P : Js.platform.

(** Lines 21-26: the serialized buffer back to a real [Buffer]. *)
Definition actualBuffer (imageBuffer : Js.value) : Js.error + list byte :=
  if Js.truthy imageBuffer
     && Js.strictEqStr (Js.get imageBuffer "type") "Buffer"
     && Js.isArray (Js.get imageBuffer "data")
  then Js.Buffer_from P (Js.get imageBuffer "data")
  else Js.Buffer_from P imageBuffer.

(** The function given to [new Worker]. *)
Definition processor (identifyInsect : Classifier)
  : M Js.error Attempt Bull.InsectIdentificationResponse :=
  d ← gets (fun a => Bull.data (job a));
  updateProgress 10;;
  log (Decode (Bull.imageBuffer d));;
  decoded ← lift (actualBuffer (Bull.imageBuffer d));
  let imageFile :=
    {| fieldname := "image";
       originalname := Bull.imageOriginalName d;
       encoding := "7bit";
       mimetype := Bull.imageMimetype d;
       buffer := decoded;
       size := Z.of_nat (length decoded);
       destination := "";
       filename := "";
       path := "" |} in
  updateProgress 30;;
  let request := {| image := imageFile; userId := Bull.userId d |} in
  log (Classify request);;
  result ← lift (identifyInsect request);
  updateProgress 100;;
  mret result.
End Processor.

(** The options given to [new Worker]. *)
Record RateLimiterOptions : Type := mkLimiter { max : Z; duration : Z }.
Record WorkerOptions : Type := mkWorkerOptions {
  concurrency : Z;
  limiter : RateLimiterOptions
}.

Definition workerOptions : WorkerOptions :=
  {| concurrency := 5; limiter := {| max := 10; duration := 1000 |} |}.

End Worker.

(** ** One job through the worker pool *)

Module Pool.
Import Eff.

(** An attempt as the pool saw it. *)
Record AttemptRecord : Type := mkRecord {
  number : Z;
  started : Z;
  finished : Z;
  events : list Worker.Event;
  after : Bull.JobState
}.

Section Run.
Variable P : Js.platform.
(** The classification capability on attempt 1, 2, ... of the job. *)
Variable identifyInsect : Z -> Worker.Classifier.

(** Modelled from the spec: one execution attempt of section 4.3, as the
    library's worker makes it. A worker claims the job at [started], runs
    the repository's processor on it, and the broker settles the job at
    [finished] by what the processor returned or threw. *)
Definition attempt (started finished : Z) (j : Bull.Job) : Bull.Job * AttemptRecord :=
  let j1 := Bull.moveToActive started j in
  let '(outcome, a) :=
    Worker.processor P (identifyInsect (Bull.attemptsMade j1)) (Worker.mkAttempt j1 []) in
  let j2 := Bull.settle outcome finished (Worker.job a) in
  (j2, mkRecord (Bull.attemptsMade j1) started finished (Worker.trace a) (Bull.state j2)).

(** Modelled from the spec: the state machine of section 4.3 for one job,
    from the time [ready] at which it can be claimed. Each entry
    [(wait, duration)] of the schedule is one claim: the time the job waits
    for a free worker, and the time the attempt takes. A delayed job becomes
    ready when its delay has elapsed; a completed or failed job is terminal
    and is not claimed again. *)
Fixpoint run (schedule : list (Z * Z)) (ready : Z) (j : Bull.Job)
  : Bull.Job * list AttemptRecord :=
  match schedule with
  | [] => (j, [])
  | (wait, duration) :: rest =>
      let claim (t : Z) :=
        let '(j', r) := attempt (t + wait) (t + wait + duration) j in
        let '(j'', rs) := run rest (t + wait + duration) j' in
        (j'', r :: rs) in
      match Bull.state j with
      | Bull.Waiting => claim ready
      | Bull.Delayed until => claim (Z.max ready until)
      | Bull.Active | Bull.Completed | Bull.Failed => (j, [])
      end
  end.
End Run.

End Pool.

(** ** src/config/redis.config.ts *)

Module Config.

(** The options given to [new Redis]. [maxRetriesPerRequest] is [None] for
    [null]. *)
Record RedisOptions : Type := mkRedis {
  host : string;
  port : Z;
  password : option string;
  maxRetriesPerRequest : option Z;
  enableReadyCheck : bool
}.

(** [redisConnection], for the host, port and password of the environment. *)
Definition redisConnection (REDIS_HOST : string) (REDIS_PORT : Z)
    (REDIS_PASSWORD : option string) : RedisOptions :=
  {| host := REDIS_HOST;
     port := REDIS_PORT;
     password := REDIS_PASSWORD;
     maxRetriesPerRequest := None;
     enableReadyCheck := false |}.

(** What the client does with a command while the broker cannot be
    reached: with a limit of retries the command is flushed with an error
    once the limit is reached; with [maxRetriesPerRequest: null] it waits
    until the connection is alive again. (The message is the first sentence
    of the client's.) *)
Definition whileOffline (o : RedisOptions) : Eff.halt :=
  match maxRetriesPerRequest o with
  | Some _ =>
      Eff.Threw (Js.mkError "MaxRetriesPerRequestError"
                   "Reached the max retries per request limit")
  | None => Eff.Awaits
  end.

End Config.

(** ** The queue as the broker holds it *)

Module Queue.
Import Eff.

(** A sorted set of the broker: members by ascending score, here job ids
    by the time at which they finished. *)
Abbreviation zset := (list (Z * string)).

Definition members (zs : zset) : list string := zs.*2.

Fixpoint zinsert (score : Z) (member : string) (zs : zset) : zset :=
  match zs with
  | [] => [(score, member)]
  | (s, m) :: rest =>
      if (score <? s) || ((score =? s) && String.ltb member m)
      then (score, member) :: zs
      else (s, m) :: zinsert score member rest
  end.

(** [ZADD]: the member enters at its score, ties in the order of the
    members; a member already present moves to its new score. *)
Definition zadd (score : Z) (member : string) (zs : zset) : zset :=
  zinsert score member (filter (fun e => e.2 ≠ member) zs).

(** Modelled from the spec: the retention of section 4.1 (the library's
    [removeJobsByMaxAge]): what stays of a finished set at time
    [timestamp] (milliseconds) under a maximal age [maxAge] (seconds). *)
Definition removeJobsByMaxAge (timestamp maxAge : Z) (zs : zset) : zset :=
  filter (fun e => timestamp - maxAge * 1000 < e.1) zs.

(** Modelled from the spec: the retention of section 4.1 (the library's
    [removeJobsByMaxCount]): the [maxCount] newest members stay. *)
Definition removeJobsByMaxCount (maxCount : Z) (zs : zset) : zset :=
  drop (length zs - Z.to_nat maxCount) zs.

(** Modelled from the spec: the retention step the broker runs when the
    job [jid] finishes at [now] into the set [zs], under the [KeepJobs]
    of that job: the set that stays, and the ids whose jobs are removed.
    Without a policy everything is kept; a count of 0 keeps nothing. *)
Definition retain (keep : option Bull.KeepJobs) (now : Z) (jid : string) (zs : zset)
  : zset * list string :=
  match keep with
  | None => (zadd now jid zs, [])
  | Some k =>
      if bool_decide (Bull.count k = Some 0) then (zs, [jid])
      else
        let zs1 := zadd now jid zs in
        let zs2 := match Bull.age k with
                   | Some a => removeJobsByMaxAge now a zs1
                   | None => zs1
                   end in
        let zs3 := match Bull.count k with
                   | Some c => if 0 <? c then removeJobsByMaxCount c zs2 else zs2
                   | None => zs2
                   end in
        (zs3, filter (fun m => m ∉ members zs3) (members zs1))
  end.

(** The client's connection to the broker: the broker answers; or it
    cannot be reached, and the client keeps trying to reconnect; or the
    command is rejected with an error (an error reply of the broker, or a
    connection that was closed for good). *)
Inductive Connection : Type :=
| Ready
| Offline
| Rejects (e : Js.error).

(** The broker's state for one queue, and the connection to it. *)
Record t : Type := mkQueue {
  jobs : gmap string Bull.Job;
  completedSet : zset;
  failedSet : zset;
  counter : Z;
  connection : Connection
}.

Definition empty : t := mkQueue ∅ [] [] 0 Ready.

(** A command sent to the broker over [redisConnection]: answered when the
    broker is ready, failed with the error when rejected, and handled as
    the connection options say while the broker cannot be reached. It
    changes nothing unless it is answered. *)
Definition command {A} (f : t -> A * t) : M halt t A :=
  fun q => match connection q with
           | Ready => let '(a, q') := f q in (inr a, q')
           | Offline =>
               (inl (Config.whileOffline (Config.redisConnection "localhost" 6379 None)), q)
           | Rejects e => (inl (Threw e), q)
           end.

(** Modelled from the spec: [queue.add(name, data, opts)] (section 4.1).
    The job gets the merged options and the id asked for (or the next
    number), and is stored waiting with no attempt made. An id that is
    already in use adds nothing: the stored job stays as it is. *)
Definition add (defaults : Bull.JobsOptions) (name : string)
    (data : Bull.InsectIdentificationJobData (list byte)) (opts : Bull.JobsOptions)
    (now : Z) : M halt t Bull.Job :=
  command (fun q =>
    let o := Bull.mergeOpts defaults opts in
    let jid := default (pretty (counter q + 1)) (Bull.jobId o) in
    let c := counter q + 1 in
    let j := Bull.newJob jid name data o now in
    match jobs q !! jid with
    | Some _ => (j, mkQueue (jobs q) (completedSet q) (failedSet q) c (connection q))
    | None => (j, mkQueue (<[jid := j]> (jobs q)) (completedSet q) (failedSet q) c
                          (connection q))
    end).

(** Modelled from the spec: [queue.getJob(jobId)] (section 4.4), the job
    held under the id, if any. *)
Definition getJob (jobId : string) : M halt t (option Bull.Job) :=
  command (fun q => (jobs q !! jobId, q)).

(** Modelled from the spec: [job.getState()], the name of the state in
    which the broker holds the job now. *)
Definition getState (job : Bull.Job) : M halt t string :=
  command (fun q =>
    (match jobs q !! Bull.id job with
     | Some j => Bull.stateName (Bull.state j)
     | None => "unknown"
     end, q)).



End Queue.

(** ** The queue module (src/services/firebase.services.ts, second part) *)

Module InsectQueue.
Import Eff.

(** [defaultJobOptions] of [insectIdentificationQueue]. *)
Definition defaultJobOptions : Bull.JobsOptions :=
  {| Bull.attempts := Some 3;
     Bull.backoff := Some {| Bull.type := Bull.exponential; Bull.delay := 2000 |};
     Bull.removeOnComplete := Some {| Bull.age := Some 3600; Bull.count := Some 100 |};
     Bull.removeOnFail := Some {| Bull.age := Some 86400; Bull.count := None |};
     Bull.jobId := None |}.

(** The id template: [Date.now()] is [now], and [random] is
    [Math.random().toString(36).substring(7)]. *)
Definition makeJobId (now : Z) (random : string) : string :=
  "insect-" +:+ pretty now +:+ "-" +:+ random.

Definition addInsectIdentificationJob
    (data : Bull.InsectIdentificationJobData (list byte)) (now : Z) (random : string)
  : M halt Queue.t string :=
  job ← Queue.add defaultJobOptions "identify-insect" data
          {| Bull.attempts := None; Bull.backoff := None; Bull.removeOnComplete := None;
             Bull.removeOnFail := None; Bull.jobId := Some (makeJobId now random) |} now;
  mret (Bull.id job).

(** The object [getJobStatus] returns; dates are in milliseconds. *)
Record JobStatus : Type := mkStatus {
  id : string;
  state : string;
  progress : Z;
  result : option Bull.InsectIdentificationResponse;
  failedReason : option string;
  createdAt : Z;
  processedAt : option Z;
  finishedAt : option Z
}.

(** [t ? new Date(t) : null] *)
Definition dateOrNull (t : option Z) : option Z :=
  match t with
  | Some t => if t =? 0 then None else Some t
  | None => None
  end.

Definition getJobStatus (jobId : string) : M halt Queue.t (option JobStatus) :=
  job ← Queue.getJob jobId;
  match job with
  | None => mret None
  | Some job =>
      state ← Queue.getState job;
      let progress := Bull.progress job in
      let result := Bull.returnvalue job in
      let failedReason := Bull.failedReason job in
      mret (Some {| id := Bull.id job;
                    state := state;
                    progress := progress;
                    result := result;
                    failedReason := failedReason;
                    createdAt := Bull.timestamp job;
                    processedAt := dateOrNull (Bull.processedOn job);
                    finishedAt := dateOrNull (Bull.finishedOn job) |})
  end.

End InsectQueue.

(** ** src/routes/insect.routes.ts *)

Module Routes.
Import Eff.

(** [req.user] *)
Record User : Type := mkUser { uid : string; email : option string }.

(** What the handlers read of a request, after the upload middleware and
    the optional authentication have run. *)
Record Request : Type := mkReq {
  file : option Worker.MulterFile;
  user : option User;
  body_userId : option string;
  params_jobId : string
}.

Inductive Body : Type :=
| ErrorBody (error : string)
| QueuedBody (message jobId statusUrl : string)
| StatusBody (message : string) (data : InsectQueue.JobStatus).

(** [res.status(code).json(body)] *)
Record Response : Type := mkRes { status : Z; body : Body }.

(** [a || b] on strings that may be undefined. *)
Definition orElse (a b : option string) : option string :=
  match a with
  | Some s => if String.eqb s "" then b else Some s
  | None => b
  end.

(** [error.message || fallback] *)
Definition messageOr (e : Js.error) (fallback : string) : string :=
  if String.eqb (Js.message e) "" then fallback else Js.message e.

(** POST /identify *)
Definition identify (req : Request) (now : Z) (random : string)
  : M halt Queue.t Response :=
  try_catch
    match file req with
    | None => mret (mkRes 400 (ErrorBody "Image file is required"))
    | Some f =>
        let userId := orElse (orElse (uid <$> user req) (body_userId req)) None in
        jobId ← InsectQueue.addInsectIdentificationJob
                  {| Bull.imageBuffer := Worker.buffer f;
                     Bull.imageMimetype := Worker.mimetype f;
                     Bull.imageOriginalName := Worker.originalname f;
                     Bull.userId := userId |} now random;
        mret (mkRes 202 (QueuedBody "Identification job queued successfully" jobId
                           ("/api/mobile/insect/status/" +:+ jobId)))
    end
    (fun error =>
       mret (mkRes 500 (ErrorBody (messageOr error "Failed to queue identification job")))).


End Routes.

(** * The vocabulary of the properties *)


Definition tagged (v : Js.value) : bool :=
  match v with
  | Js.Obj fields =>
      Js.strictEqStr (Js.lookup_field "type" fields) "Buffer"
      && Js.isArray (Js.lookup_field "data" fields)
  | _ => false
  end.

Definition throws {A} (r : Js.error + A) : bool :=
  match r with inl _ => true | inr _ => false end.

(** The wire forms on which the decoding throws. *)
Definition rejected (v : Js.value) : bool :=
  match v with
  | Js.Undefined | Js.Null | Js.Bool _ | Js.Num _ => true
  | Js.Str _ | Js.Arr _ | Js.Buf _ => false
  | Js.Obj fields =>
      negb (tagged v)
      && (let w := Js.lookup_field "valueOf" fields in
          if Js.truthy w then true
          else match w with
               | Js.Str _ => false
               | _ => match Js.lookup_field "length" fields with
                      | Js.Undefined => true
                      | _ => false
                      end
               end)
  end.


(** The request the processor hands to the classification capability for
    job data [d] whose image decoded to [b]. *)
Definition requestOf (d : Bull.InsectIdentificationJobData Js.value) (b : list byte)
  : Worker.InsectIdentificationRequest :=
  {| Worker.image :=
       {| Worker.fieldname := "image";
          Worker.originalname := Bull.imageOriginalName d;
          Worker.encoding := "7bit";
          Worker.mimetype := Bull.imageMimetype d;
          Worker.buffer := b;
          Worker.size := Z.of_nat (length b);
          Worker.destination := "";
          Worker.filename := "";
          Worker.path := "" |};
     Worker.userId := Bull.userId d |}.

Definition isDecode (e : Worker.Event) : bool :=
  match e with Worker.Decode _ => true | _ => false end.
Definition isClassify (e : Worker.Event) : bool :=
  match e with Worker.Classify _ => true | _ => false end.
Definition isProgress (p : Z) (e : Worker.Event) : bool :=
  match e with Worker.Progress q => q =? p | _ => false end.

(** The index of the first event of a trace that [p] accepts. *)
Fixpoint position (p : Worker.Event -> bool) (tr : list Worker.Event) : option nat :=
  match tr with
  | [] => None
  | e :: rest => if p e then Some 0%nat else S <$> position p rest
  end.

(** The stages occur in the trace, the first occurrence of each after the
    first occurrence of the one before it. *)
Fixpoint in_order (stages : list (Worker.Event -> bool)) (tr : list Worker.Event) : bool :=
  match stages with
  | [] => true
  | s :: rest =>
      match position s tr, rest with
      | None, _ => false
      | Some _, [] => true
      | Some i, s' :: _ =>
          match position s' tr with
          | Some k => (i <? k)%nat && in_order rest tr
          | None => false
          end
      end
  end.

(** The order of the claim C5 as it is stated, and the order of the
    processor. *)
Definition claimed_pipeline : list (Worker.Event -> bool) :=
  [isDecode; isProgress 10; isClassify; isProgress 100].

Definition processor_pipeline : list (Worker.Event -> bool) :=
  [isProgress 10; isDecode; isProgress 30; isClassify; isProgress 100].

(** The job that [addInsectIdentificationJob] creates from [data] at time
    [now] with the random suffix [random]. *)
Definition enqueued (data : Bull.InsectIdentificationJobData (list byte)) (now : Z)
    (random : string) : Bull.Job :=
  Bull.newJob (InsectQueue.makeJobId now random) "identify-insect" data
    (Bull.mergeOpts InsectQueue.defaultJobOptions
       (Bull.mkOpts None None None None (Some (InsectQueue.makeJobId now random))))
    now.

(** The backoff of the claim C2 as it is stated, after attempt [n]. *)
Definition claimed_backoff (n : Z) : Z := 2000 * 2 ^ (n - 1).

(** A log of failed attempts numbered from [m + 1], of a job with [N]
    attempts and an exponential backoff of base [D] that was ready at
    [earliest]: every attempt but the [N]-th leaves the job delayed until
    its backoff has elapsed, the next attempt starts no earlier, and the
    [N]-th leaves it failed. *)
Fixpoint retry_log (N D : Z) (earliest m : Z) (log : list Pool.AttemptRecord) : Prop :=
  match log with
  | [] => True
  | r :: rest =>
      Pool.number r = m + 1
      /\ earliest <= Pool.started r
      /\ Pool.after r = (if m + 1 <? N
                         then Bull.Delayed (Pool.finished r + 2 ^ m * D)
                         else Bull.Failed)
      /\ retry_log N D (Pool.finished r + 2 ^ m * D) (m + 1) rest
  end.

(** When a job can be claimed. *)
Definition readyAt (ready : Z) (s : Bull.JobState) : option Z :=
  match s with
  | Bull.Waiting => Some ready
  | Bull.Delayed until => Some (Z.max ready until)
  | _ => None
  end.






(** The order of a finished set: by finishing time. *)
Definition byScore : relation (Z * string) := fun a b => a.1 <= b.1.

(** * Sample data for the closed examples *)

(** A platform that reads every string and object as NaN, with the text of
    node's rejection message (without the description of what it received).
    The examples below hold no string or object as an array element. *)
Definition sample_platform : Js.platform :=
  {| Js.ToNumber := fun _ => 0;
     Js.invalid_arg_message := fun _ =>
       "The first argument must be of type string or an instance of Buffer, ArrayBuffer, or Array or an Array-like Object." |}.

Definition sample_bytes : list byte := [Byte.xff; Byte.xd8; Byte.x00; Byte.x7f].

Definition sample_data : Bull.InsectIdentificationJobData (list byte) :=
  {| Bull.imageBuffer := sample_bytes;
     Bull.imageMimetype := "image/jpeg";
     Bull.imageOriginalName := "moth.jpg";
     Bull.userId := Some "u1" |}.

(** An answer of the classification capability. *)
Definition sample_response : Bull.InsectIdentificationResponse :=
  {| Bull.insect_id := "doc1"; Bull.insect_name := "Luna moth";
     Bull.scientificName := "Actias luna"; Bull.description := "";
     Bull.imageUrl := ""; Bull.confidence := Js.Undefined; Bull.location := Js.Undefined;
     Bull.detectedAt := Js.Num 0; Bull.createdAt := Js.Num 0 |}.

(** A capability that answers every request with the same insect, and one
    that rejects every request. *)
Definition always_identifies : Worker.Classifier := fun _ => inr sample_response.
Definition never_identifies : Worker.Classifier :=
  fun _ => inl (Js.Error "Failed to identify insect: quota exceeded").

(** The job of the sample upload, as [addInsectIdentificationJob] creates
    it. *)
Definition sample_job : Bull.Job := enqueued sample_data 1700000000000 "k3x9q".







(** * The services behind the queue: documents, users, sessions and history *)

(** ** Document values, as the services build them and as the store holds them *)

Module Fs.

(** A field of a document.  A number is held as an integer: the code
    computes only with counts and with times in milliseconds.  A stored
    [Timestamp] is held by the time that its [toDate()] gives; [Date] is a
    JavaScript date; [ServerTimestamp] and [Increment] are the sentinels
    [FieldValue.serverTimestamp()] and [FieldValue.increment(n)], which
    exist on the way to the store only. *)
Inductive value : Type :=
| Undefined
| Null
| Bool (b : bool)
| Num (n : Z)
| Str (s : string)
| Timestamp (date : Z)
| Date (ms : Z)
| ServerTimestamp
| Increment (n : Z)
| Arr (xs : list value)
| Map (fields : gmap string value).

(** An object with string keys: [doc.data()], and what is handed to
    [add], [set] and [update]. *)
Abbreviation object := (gmap string value).

Definition truthy (v : value) : bool :=
  match v with
  | Undefined | Null => false
  | Bool b => b
  | Num n => negb (n =? 0)
  | Str s => negb (String.eqb s "")
  | _ => true
  end.

(** [v === undefined] *)
Definition isUndefined (v : value) : bool :=
  match v with Undefined => true | _ => false end.

(** [o.k]: a key that is not there reads as [undefined]. *)
Definition get (o : object) (k : string) : value := default Undefined (o !! k).

(** [a || b] *)
Definition or (a b : value) : value := if truthy a then a else b.

(** A string that may be undefined, as a value. *)
Definition ofString (s : option string) : value :=
  match s with Some s => Str s | None => Undefined end.

(** [Object.fromEntries(Object.entries(obj).filter(([_, value]) => value !== undefined))] *)
Definition withoutUndefined (obj : object) : object :=
  filter (fun kv => isUndefined kv.2 = false) obj.

(** [if (converted.k && converted.k.toDate) converted.k = converted.k.toDate()]:
    a stored timestamp becomes its date; a map that holds something truthy
    under [toDate] is called and is no function; every other value is left. *)
Definition convertField (k : string) (converted : object) : Js.error + object :=
  match converted !! k with
  | Some (Timestamp date) => inr (<[k := Date date]> converted)
  | Some (Map fields) =>
      if truthy (get fields "toDate")
      then inl (Js.TypeError ("converted." +:+ k +:+ ".toDate is not a function"))
      else inr converted
  | _ => inr converted
  end.

(** The fields in turn, stopping at the first that throws. *)
Fixpoint convertFields (ks : list string) (converted : object) : Js.error + object :=
  match ks with
  | [] => inr converted
  | k :: ks =>
      match convertField k converted with
      | inr converted => convertFields ks converted
      | inl e => inl e
      end
  end.

(** The body that the two [convertTimestamps] share: [if (!data) return data],
    then the fields of a copy. *)
Definition convertTimestampsOf (ks : list string) (data : option object)
  : Js.error + option object :=
  match data with
  | None => inr None
  | Some data =>
      match convertFields ks data with
      | inr converted => inr (Some converted)
      | inl e => inl e
      end
  end.

End Fs.

(** ** src/utils/insect.helpers.ts *)

Module InsectHelpers.

Definition convertTimestamps (data : option Fs.object) : Js.error + option Fs.object :=
  Fs.convertTimestampsOf ["createdAt"; "updatedAt"; "detectedAt"] data.

End InsectHelpers.

(** ** The document store *)

Module Firestore.
Import Eff.

(** The documents by collection and id, and the error with which the store
    answers while it cannot be used. *)
Record t : Type := mkDb {
  docs : gmap (string * string) Fs.object;
  fault : option Js.error
}.

Definition empty : t := mkDb ∅ None.

(** What a written field becomes in the store at server time [now], over
    the field [old] that the document held: the sentinels are resolved and
    a date is kept as a timestamp. *)
Definition resolve (now : Z) (old v : Fs.value) : Fs.value :=
  match v with
  | Fs.ServerTimestamp => Fs.Timestamp now
  | Fs.Increment n => match old with Fs.Num z => Fs.Num (z + n) | _ => Fs.Num n end
  | Fs.Date ms => Fs.Timestamp ms
  | v => v
  end.

(** The fields that a write of [data] stores; the store is opened with
    [ignoreUndefinedProperties: true], so an undefined field is skipped. *)
Definition written (now : Z) (old data : Fs.object) : Fs.object :=
  map_imap (fun k v => if Fs.isUndefined v then None
                       else Some (resolve now (Fs.get old k) v)) data.

(** Every call goes to the server first. *)
Definition reach : M Js.error t unit :=
  fun db => match fault db with
            | Some e => (inl e, db)
            | None => (inr tt, db)
            end.

(** [collection(c).doc(id).get()]: [None] for a snapshot with [exists]
    false. *)
Definition get (c id : string) : M Js.error t (option Fs.object) :=
  reach;; gets (fun db => docs db !! (c, id)).

(** [collection(c).add(data)], with the id that the client draws for the
    new document. *)
Definition add (c autoId : string) (now : Z) (data : Fs.object)
  : M Js.error t string :=
  reach;;
  held ← gets (fun db => docs db !! (c, autoId));
  match held with
  | Some _ => lift (inl (Js.Error "6 ALREADY_EXISTS: Document already exists"))
  | None =>
      modify (fun db => mkDb (<[(c, autoId) := written now ∅ data]> (docs db)) (fault db));;
      mret autoId
  end.

(** [collection(c).doc(id).set(data)] *)
Definition set (c id : string) (now : Z) (data : Fs.object) : M Js.error t unit :=
  reach;;
  modify (fun db => mkDb (<[(c, id) := written now ∅ data]> (docs db)) (fault db)).

(** [collection(c).doc(id).update(data)]: the fields written replace or
    join those held; a document that is not there is not created. *)
Definition update (c id : string) (now : Z) (data : Fs.object) : M Js.error t unit :=
  reach;;
  held ← gets (fun db => docs db !! (c, id));
  match held with
  | None => lift (inl (Js.Error "5 NOT_FOUND: No document to update"))
  | Some old =>
      modify (fun db => mkDb (<[(c, id) := written now old data ∪ old]> (docs db)) (fault db))
  end.

(** The order of the store on values of different types, and within the
    scalar types.  (Two arrays or two maps are told apart by the document
    id only; the services order by [detectedAt], under which they store a
    server timestamp.) *)
Definition rank (v : Fs.value) : Z * Z * string :=
  match v with
  | Fs.Null => (0, 0, "")
  | Fs.Bool b => (1, if b then 1 else 0, "")
  | Fs.Num n => (2, n, "")
  | Fs.Timestamp d | Fs.Date d => (3, d, "")
  | Fs.Str s => (4, 0, s)
  | Fs.Arr _ => (5, 0, "")
  | Fs.Map _ => (6, 0, "")
  | _ => (-1, 0, "")
  end.

Definition lex (c1 c2 : comparison) : comparison :=
  match c1 with Eq => c2 | c => c end.

Definition compare_by (field : string) (a b : string * Fs.object) : comparison :=
  let '(ra, na, sa) := rank (Fs.get a.2 field) in
  let '(rb, nb, sb) := rank (Fs.get b.2 field) in
  lex (ra ?= rb) (lex (na ?= nb) (lex (String.compare sa sb) (String.compare a.1 b.1))).

(** [a] may stand before [b] in a result ordered by [field], descending. *)
Definition desc (field : string) (a b : string * Fs.object) : Prop :=
  compare_by field b a <> Gt.

#[global] Instance desc_dec field a b : Decision (desc field a b).
Proof. unfold desc. destruct (compare_by field b a); [left|left|right]; congruence. Defined.

(** The documents of a collection, with their ids. *)
Definition collection (c : string) (db : t) : list (string * Fs.object) :=
  omap (fun kv => if String.eqb (fst (fst kv)) c then Some (snd (fst kv), snd kv) else None)
       (map_to_list (docs db)).

(** [field == s] for a string [s]. *)
Definition fieldIs (field s : string) (d : string * Fs.object) : bool :=
  match Fs.get d.2 field with
  | Fs.Str s' => String.eqb s' s
  | _ => false
  end.

(** A document takes part in an ordered query only if it has the field. *)
Definition hasField (field : string) (d : string * Fs.object) : bool :=
  bool_decide (is_Some (d.2 !! field)).

(** [collection(c).where(field, '==', s).orderBy(by, 'desc').get()] *)
Definition whereOrderByDesc (c field s by_ : string)
  : M Js.error t (list (string * Fs.object)) :=
  reach;;
  gets (fun db =>
          merge_sort (desc by_)
            (filter (fun d => fieldIs field s d = true /\ hasField by_ d = true)
                    (collection c db))).

(** [collection(c).where(field, '==', s).limit(1).get()], as the one thing
    that is read of it: [empty]. *)
Definition noneWhere (c field s : string) : M Js.error t bool :=
  reach;;
  gets (fun db => bool_decide (filter (fun d => fieldIs field s d = true) (collection c db) = [])).

End Firestore.

(** ** src/services/firebase.services.ts *)

Module FirebaseService.
Import Eff.

(** [{ ...data, createdAt: serverTimestamp(), updatedAt: serverTimestamp() }] *)
Definition createInsect (data : Fs.object) (autoId : string) (now : Z)
  : M Js.error Firestore.t string :=
  Firestore.add "insects" autoId now
    (<["updatedAt" := Fs.ServerTimestamp]> (<["createdAt" := Fs.ServerTimestamp]> data)).

(** [doc.exists ? { id: doc.id, ...doc.data() } : null] *)
Definition getInsect (id : string) : M Js.error Firestore.t (option Fs.object) :=
  doc ← Firestore.get "insects" id;
  mret (match doc with
        | Some data => Some (data ∪ {["id" := Fs.Str id]})
        | None => None
        end).

End FirebaseService.

(** * Properties *)

(** ** The payload codec *)

Lemma byte_of_Z_of_byte (b : byte) : Js.byte_of_Z (Js.Z_of_byte b) = b.
Proof.
  unfold Js.byte_of_Z, Js.Z_of_byte.
  pose proof (Byte.to_N_bounded b) as Hb.
  rewrite Z.mod_small by lia.
  rewrite N2Z.id, Byte.of_to_N. reflexivity.
Qed.

Lemma fromArray_toJSON (P : Js.platform) (bytes : list byte) :
  Js.fromArray P ((fun b => Js.Num (Js.Z_of_byte b)) <$> bytes) = bytes.
Proof.
  unfold Js.fromArray.
  induction bytes as [|b bytes IH]; simpl; [reflexivity|].
  rewrite byte_of_Z_of_byte. f_equal. exact IH.
Qed.

(** A value in the tagged form is decoded from its [data] array, whatever
    else it holds. *)
Lemma actualBuffer_tagged (P : Js.platform) (fields : list (string * Js.value))
    (xs : list Js.value) :
  Js.lookup_field "type" fields = Js.Str "Buffer" ->
  Js.lookup_field "data" fields = Js.Arr xs ->
  Worker.actualBuffer P (Js.Obj fields) = inr (Js.fromArray P xs).
Proof.
  intros Htype Hdata. unfold Worker.actualBuffer. simpl.
  rewrite Htype, Hdata. reflexivity.
Qed.

Lemma actualBuffer_serialize (P : Js.platform)
    (d : Bull.InsectIdentificationJobData (list byte)) :
  Worker.actualBuffer P (Bull.imageBuffer (Bull.serialize d)) = inr (Bull.imageBuffer d).
Proof.
  unfold Bull.serialize, Js.Buffer_toJSON. simpl.
  erewrite actualBuffer_tagged by reflexivity.
  rewrite fromArray_toJSON. reflexivity.
Qed.

(** C1. Decoding what the queue wrote for a buffer gives back the bytes of
    that buffer, for every payload: the tagged form is rebuilt from its data
    array, and a native buffer passes through unchanged. *)
Theorem decode_encode_roundtrip (P : Js.platform)
    (d : Bull.InsectIdentificationJobData (list byte)) :
  tagged (Bull.imageBuffer (Bull.serialize d)) = true
  /\ Worker.actualBuffer P (Bull.imageBuffer (Bull.serialize d)) = inr (Bull.imageBuffer d)
  /\ Worker.actualBuffer P (Js.Buf (Bull.imageBuffer d)) = inr (Bull.imageBuffer d).
Proof.
  split; [reflexivity|]. split; [apply actualBuffer_serialize|reflexivity].
Qed.



(** ** The worker's pipeline *)

(** What the processor does, by the two places at which it can throw. *)
Lemma processor_unfold (P : Js.platform) (identifyInsect : Worker.Classifier)
    (a : Worker.Attempt) :
  let d := Bull.data (Worker.job a) in
  let w := Bull.imageBuffer d in
  let j10 := Bull.setProgress 10 (Worker.job a) in
  Worker.processor P identifyInsect a =
    match Worker.actualBuffer P w with
    | inl e =>
        (inl e, Worker.mkAttempt j10
                  (Worker.trace a ++ [Worker.Progress 10; Worker.Decode w]))
    | inr b =>
        match identifyInsect (requestOf d b) with
        | inl e =>
            (inl e, Worker.mkAttempt (Bull.setProgress 30 j10)
                      (Worker.trace a ++ [Worker.Progress 10; Worker.Decode w;
                                          Worker.Progress 30;
                                          Worker.Classify (requestOf d b)]))
        | inr r =>
            (inr r, Worker.mkAttempt (Bull.setProgress 100 (Bull.setProgress 30 j10))
                      (Worker.trace a ++ [Worker.Progress 10; Worker.Decode w;
                                          Worker.Progress 30;
                                          Worker.Classify (requestOf d b);
                                          Worker.Progress 100]))
        end
    end.
Proof.
  intros d w j10. subst d w j10.
  unfold Worker.processor, Worker.updateProgress, Worker.log, requestOf.
  unfold mbind, mret, Eff.M_bind, Eff.M_ret, Eff.bind, Eff.ret, Eff.gets, Eff.modify, Eff.lift.
  simpl.
  destruct (Worker.actualBuffer P _) as [e|b]; simpl.
  - rewrite <- !app_assoc. reflexivity.
  - destruct (identifyInsect _) as [e|r]; simpl; rewrite <- !app_assoc; reflexivity.
Qed.

(** The processor changes nothing of the job but its progress. *)
Lemma processor_job (P : Js.platform) (identifyInsect : Worker.Classifier)
    (a : Worker.Attempt) :
  exists p, Worker.job (Worker.processor P identifyInsect a).2
            = Bull.setProgress p (Worker.job a).
Proof.
  rewrite processor_unfold. cbv zeta.
  destruct (Worker.actualBuffer P _) as [e|b]; [exists 10; reflexivity|].
  destruct (identifyInsect _) as [e|r]; [exists 30|exists 100]; reflexivity.
Qed.

(** C5, counterexample. On a job that succeeds, progress 10 is reported
    first and the payload is decoded after it; and on a job whose payload
    cannot be decoded the attempt throws with progress 10 already reported. *)
Lemma progress_reported_before_decode :
  (Worker.trace (Worker.processor sample_platform always_identifies
                   (Worker.mkAttempt sample_job [])).2
     = [Worker.Progress 10;
        Worker.Decode (Js.Buffer_toJSON sample_bytes);
        Worker.Progress 30;
        Worker.Classify (requestOf (Bull.data sample_job) sample_bytes);
        Worker.Progress 100])
  /\ in_order claimed_pipeline
       (Worker.trace (Worker.processor sample_platform always_identifies
                        (Worker.mkAttempt sample_job [])).2) = false
  /\ (let undecodable :=
        Bull.mkJob "j" "identify-insect"
          (Bull.mkData Js.Null "image/jpeg" "moth.jpg" None)
          InsectQueue.defaultJobOptions 0 None None 1 0 (Some 0) None Bull.Active in
      let '(outcome, a) :=
        Worker.processor sample_platform always_identifies
          (Worker.mkAttempt undecodable []) in
      throws outcome = true /\ Bull.progress (Worker.job a) = 10).
Proof.
  split; [reflexivity|]. split; [reflexivity|]. simpl. split; reflexivity.
Qed.

(** C5, amended. Every attempt runs the stages in this order: report
    progress 10, decode the payload, report progress 30, invoke the
    classification capability, report progress 100. When the payload decodes
    and the capability answers, the attempt returns that answer, and the job
    finishes completed with progress 100 and the answer as its result. *)
Theorem pipeline_order (P : Js.platform) (identifyInsect : Z -> Worker.Classifier)
    (j : Bull.Job) (started finished : Z) (b : list byte)
    (r : Bull.InsectIdentificationResponse) :
  let d := Bull.data j in
  let n := Bull.attemptsMade j + 1 in
  Worker.actualBuffer P (Bull.imageBuffer d) = inr b ->
  identifyInsect n (requestOf d b) = inr r ->
  let '(j', rec) := Pool.attempt P identifyInsect started finished j in
  Pool.events rec = [Worker.Progress 10;
                     Worker.Decode (Bull.imageBuffer d);
                     Worker.Progress 30;
                     Worker.Classify (requestOf d b);
                     Worker.Progress 100]
  /\ in_order processor_pipeline (Pool.events rec) = true
  /\ Bull.state j' = Bull.Completed
  /\ Bull.progress j' = 100
  /\ Bull.returnvalue j' = Some r
  /\ Bull.finishedOn j' = Some finished.
Proof.
  intros d n Hdecode Hclassify. subst d n.
  unfold Pool.attempt. rewrite processor_unfold. cbv zeta. simpl.
  rewrite Hdecode. simpl in Hclassify |- *. rewrite Hclassify. simpl.
  repeat split; reflexivity.
Qed.

Lemma pipeline_order_witness :
  let '(j', rec) :=
    Pool.attempt sample_platform (fun _ => always_identifies) 5 9 sample_job in
  Pool.events rec = [Worker.Progress 10;
                     Worker.Decode (Bull.imageBuffer (Bull.data sample_job));
                     Worker.Progress 30;
                     Worker.Classify (requestOf (Bull.data sample_job) sample_bytes);
                     Worker.Progress 100]
  /\ in_order processor_pipeline (Pool.events rec) = true
  /\ Bull.state j' = Bull.Completed
  /\ Bull.progress j' = 100
  /\ Bull.returnvalue j' = Some sample_response
  /\ Bull.finishedOn j' = Some 9.
Proof.
  exact (pipeline_order sample_platform (fun _ => always_identifies) sample_job 5 9
           sample_bytes sample_response eq_refl eq_refl).
Defined.

(** ** Retries *)

Lemma run_finished (P : Js.platform) (identifyInsect : Z -> Worker.Classifier)
    (schedule : list (Z * Z)) (ready : Z) (j : Bull.Job) :
  readyAt ready (Bull.state j) = None ->
  Pool.run P identifyInsect schedule ready j = (j, []).
Proof.
  destruct schedule as [|[w d] rest]; [reflexivity|].
  simpl. destruct (Bull.state j); simpl; intros; try discriminate; reflexivity.
Qed.

Lemma run_claim (P : Js.platform) (identifyInsect : Z -> Worker.Classifier)
    (w d : Z) (rest : list (Z * Z)) (ready t : Z) (j : Bull.Job) :
  readyAt ready (Bull.state j) = Some t ->
  Pool.run P identifyInsect ((w, d) :: rest) ready j =
    let '(j', r) := Pool.attempt P identifyInsect (t + w) (t + w + d) j in
    let '(j'', rs) := Pool.run P identifyInsect rest (t + w + d) j' in
    (j'', r :: rs).
Proof.
  simpl. destruct (Bull.state j); simpl; intros [= <-] || discriminate; reflexivity.
Qed.

Section RetryBound.
Variable P : Js.platform.
Variable identifyInsect : Z -> Worker.Classifier.
Variable d0 : Bull.InsectIdentificationJobData Js.value.

(** The pipeline fails on every attempt at a job with the data [d0]. *)
Hypothesis always_fails :
  forall n a, Bull.data (Worker.job a) = d0 ->
    throws (Worker.processor P (identifyInsect n) a).1 = true.

Lemma attempt_failed (started finished : Z) (j : Bull.Job) :
  Bull.data j = d0 ->
  exists e p tr,
    let j' := Bull.moveToFailed e finished
                (Bull.setProgress p (Bull.moveToActive started j)) in
    Pool.attempt P identifyInsect started finished j
      = (j', Pool.mkRecord (Bull.attemptsMade j + 1) started finished tr (Bull.state j')).
Proof.
  intros Hdata. unfold Pool.attempt.
  pose proof (always_fails (Bull.attemptsMade (Bull.moveToActive started j))
                (Worker.mkAttempt (Bull.moveToActive started j) []) Hdata) as Hthrows.
  destruct (processor_job P (identifyInsect (Bull.attemptsMade (Bull.moveToActive started j)))
              (Worker.mkAttempt (Bull.moveToActive started j) [])) as [p Hjob].
  destruct (Worker.processor _ _ _) as [[e|r] a]; simpl in *; [|discriminate].
  exists e, p, (Worker.trace a). rewrite Hjob. reflexivity.
Qed.

Lemma failing_run (N D : Z) (schedule : list (Z * Z)) :
  0 < D ->
  forall (ready t m : Z) (j : Bull.Job),
    Bull.data j = d0 ->
    Bull.attempts (Bull.opts j) = Some N ->
    Bull.backoff (Bull.opts j) = Some (Bull.mkBackoff Bull.exponential D) ->
    Bull.attemptsMade j = m -> 0 <= m < N ->
    readyAt ready (Bull.state j) = Some t ->
    N - m <= Z.of_nat (length schedule) ->
    Forall (fun e => 0 <= e.1) schedule ->
    let '(j', log) := Pool.run P identifyInsect schedule ready j in
    Bull.state j' = Bull.Failed
    /\ Bull.attemptsMade j' = N
    /\ Z.of_nat (length log) = N - m
    /\ is_Some (Bull.failedReason j')
    /\ Bull.returnvalue j' = Bull.returnvalue j
    /\ retry_log N D t m log.
Proof.
  intros HD.
  induction schedule as [|[w d] rest IH];
    intros ready t m j Hdata Hatt Hback Hm Hrange Hready Hlen Hwait.
  - simpl in Hlen. lia.
  - rewrite (run_claim _ _ _ _ _ _ _ _ Hready).
    destruct (attempt_failed (t + w) (t + w + d) j Hdata) as (e & p & tr & Hattempt).
    cbv zeta in Hattempt. rewrite Hattempt. clear Hattempt.
    apply Forall_cons in Hwait as [Hw Hwait]. simpl in Hw.
    set (j1 := Bull.moveToFailed e (t + w + d)
                 (Bull.setProgress p (Bull.moveToActive (t + w) j))).
    assert (Hpow : 0 < 2 ^ m * D) by (apply Z.mul_pos_pos; [apply Z.pow_pos_nonneg|]; lia).
    destruct (decide (m + 1 < N)) as [Hlt|Hge].
    + assert (Hfields : Bull.state j1 = Bull.Delayed (t + w + d + 2 ^ m * D)
                        /\ Bull.attemptsMade j1 = m + 1
                        /\ Bull.opts j1 = Bull.opts j
                        /\ Bull.returnvalue j1 = Bull.returnvalue j
                        /\ Bull.data j1 = Bull.data j).
      { subst j1. unfold Bull.moveToFailed, Bull.shouldRetry. simpl.
        rewrite Hatt, Hback, Hm. simpl.
        replace (m + 1 <? N) with true by (symmetry; apply Z.ltb_lt; lia). simpl.
        replace (m + 1 - 1) with m by lia.
        replace (0 <? 2 ^ m * D) with true by (symmetry; apply Z.ltb_lt; lia).
        simpl. repeat split; reflexivity. }
      destruct Hfields as (Hst & Hmade & Hopts & Hret & Hdata1).
      specialize (IH (t + w + d) (Z.max (t + w + d) (t + w + d + 2 ^ m * D)) (m + 1) j1).
      rewrite Hopts, Hdata1 in IH. specialize (IH Hdata Hatt Hback Hmade ltac:(lia)).
      rewrite Hst in IH. specialize (IH eq_refl).
      simpl in Hlen. specialize (IH ltac:(lia) Hwait).
      destruct (Pool.run P identifyInsect rest (t + w + d) j1) as [j' log].
      destruct IH as (? & ? & ? & ? & ? & Hlog).
      repeat split; try assumption; simpl; try lia; try congruence.
      * rewrite Hst. replace (m + 1 <? N) with true by (symmetry; apply Z.ltb_lt; lia).
        reflexivity.
      * replace (Z.max (t + w + d) (t + w + d + 2 ^ m * D)) with (t + w + d + 2 ^ m * D)
          in Hlog by lia.
        exact Hlog.
    + assert (Hfields : Bull.state j1 = Bull.Failed
                        /\ Bull.attemptsMade j1 = m + 1
                        /\ is_Some (Bull.failedReason j1)
                        /\ Bull.returnvalue j1 = Bull.returnvalue j).
      { subst j1. unfold Bull.moveToFailed, Bull.shouldRetry. simpl.
        rewrite Hatt, Hm.
        replace (m + 1 <? N) with false by (symmetry; apply Z.ltb_ge; lia). simpl.
        repeat split; eauto. }
      destruct Hfields as (Hst & Hmade & Hreason & Hret).
      rewrite run_finished by (rewrite Hst; reflexivity).
      repeat split; try assumption; simpl; try lia.
      rewrite Hst. replace (m + 1 <? N) with false by (symmetry; apply Z.ltb_ge; lia).
      reflexivity.
Qed.
End RetryBound.

(** C2. A job of this queue whose pipeline fails on every attempt ends
    failed after exactly three attempts, however many more claims the
    schedule offers; after attempt 1 it is delayed by 2000 ms and after
    attempt 2 by 4000 ms, that is by [2000 * 2^(n-1)] after attempt [n], and
    the next attempt does not start before that delay has elapsed. *)
Theorem retry_bound (P : Js.platform) (identifyInsect : Z -> Worker.Classifier)
    (data : Bull.InsectIdentificationJobData (list byte)) (now : Z) (random : string)
    (schedule : list (Z * Z)) (ready : Z) :
  (forall n, throws (identifyInsect n (requestOf (Bull.serialize data)
                                         (Bull.imageBuffer data))) = true) ->
  (3 <= length schedule)%nat ->
  Forall (fun e => 0 <= e.1) schedule ->
  let '(j, log) := Pool.run P identifyInsect schedule ready (enqueued data now random) in
  Bull.state j = Bull.Failed
  /\ Bull.attemptsMade j = 3
  /\ is_Some (Bull.failedReason j)
  /\ Bull.returnvalue j = None
  /\ exists r1 r2 r3,
       log = [r1; r2; r3]
       /\ Pool.number r1 = 1 /\ Pool.number r2 = 2 /\ Pool.number r3 = 3
       /\ Pool.after r1 = Bull.Delayed (Pool.finished r1 + claimed_backoff 1)
       /\ Pool.after r2 = Bull.Delayed (Pool.finished r2 + claimed_backoff 2)
       /\ Pool.after r3 = Bull.Failed
       /\ Pool.finished r1 + claimed_backoff 1 <= Pool.started r2
       /\ Pool.finished r2 + claimed_backoff 2 <= Pool.started r3.
Proof.
  intros Hrejects Hlen Hwait.
  assert (Hfails : forall n a, Bull.data (Worker.job a) = Bull.serialize data ->
                     throws (Worker.processor P (identifyInsect n) a).1 = true).
  { intros n a Hdata. rewrite processor_unfold. cbv zeta. rewrite Hdata.
    rewrite actualBuffer_serialize.
    specialize (Hrejects n). destruct (identifyInsect n _); [reflexivity|discriminate]. }
  pose proof (failing_run P identifyInsect (Bull.serialize data) Hfails 3 2000 schedule
                ltac:(lia) ready ready 0 (enqueued data now random)
                eq_refl eq_refl eq_refl eq_refl ltac:(lia) eq_refl ltac:(lia) Hwait) as H.
  destruct (Pool.run P identifyInsect schedule ready (enqueued data now random)) as [j log].
  destruct H as (Hst & Hmade & Hlog & Hreason & Hret & Hretry).
  repeat split; try assumption.
  destruct log as [|r1 [|r2 [|r3 [|r4 log]]]]; simpl in Hlog; try lia.
  exists r1, r2, r3. unfold claimed_backoff.
  simpl in Hretry. destruct Hretry as (? & ? & ? & (? & ? & ? & (? & ? & ? & _))).
  repeat split; try assumption; lia.
Qed.

Lemma retry_bound_witness :
  let '(j, log) :=
    Pool.run sample_platform (fun _ => never_identifies)
      [(0, 10); (5, 10); (0, 10); (0, 10); (0, 10)] 0
      (enqueued sample_data 1700000000000 "k3x9q") in
  Bull.state j = Bull.Failed
  /\ Bull.attemptsMade j = 3
  /\ is_Some (Bull.failedReason j)
  /\ Bull.returnvalue j = None
  /\ exists r1 r2 r3,
       log = [r1; r2; r3]
       /\ Pool.number r1 = 1 /\ Pool.number r2 = 2 /\ Pool.number r3 = 3
       /\ Pool.after r1 = Bull.Delayed (Pool.finished r1 + claimed_backoff 1)
       /\ Pool.after r2 = Bull.Delayed (Pool.finished r2 + claimed_backoff 2)
       /\ Pool.after r3 = Bull.Failed
       /\ Pool.finished r1 + claimed_backoff 1 <= Pool.started r2
       /\ Pool.finished r2 + claimed_backoff 2 <= Pool.started r3.
Proof.
  apply (retry_bound sample_platform (fun _ => never_identifies) sample_data
           1700000000000 "k3x9q" [(0, 10); (5, 10); (0, 10); (0, 10); (0, 10)] 0).
  - intros n. reflexivity.
  - simpl. lia.
  - repeat constructor; simpl; lia.
Defined.

(** ** The status projection *)



Lemma getJobStatus_rejected (q : Queue.t) (jobId : string) (e : Js.error) :
  Queue.connection q = Queue.Rejects e ->
  InsectQueue.getJobStatus jobId q = (inl (Eff.Threw e), q).
Proof.
  intros Hdown.
  unfold InsectQueue.getJobStatus, Queue.getJob, Queue.command.
  unfold mbind, Eff.M_bind, Eff.bind.
  rewrite Hdown. reflexivity.
Qed.








(** ** The routes *)


Lemma lookup_foldr_delete_notin (m : gmap string Bull.Job) (ids : list string) (k : string) :
  k ∉ ids -> foldr delete m ids !! k = m !! k.
Proof.
  induction ids as [|i ids IH]; intros Hnin; [reflexivity|].
  apply not_elem_of_cons in Hnin as [Hne Hnin].
  simpl. rewrite lookup_delete_ne by congruence. apply IH. exact Hnin.
Qed.






(** C10. A request without an uploaded file is answered with 400 "Image
    file is required"; no command is sent to the broker, whatever the state
    of the connection, so no job is created and no job id is issued. *)
Theorem identify_requires_file (q : Queue.t) (req : Routes.Request) (now : Z)
    (random : string) :
  Routes.file req = None ->
  Routes.identify req now random q
    = (inr (Routes.mkRes 400 (Routes.ErrorBody "Image file is required")), q).
Proof.
  intros Hfile. unfold Routes.identify, Eff.try_catch. rewrite Hfile. reflexivity.
Qed.

Lemma identify_requires_file_witness :
  Routes.identify (Routes.mkReq None None (Some "u1") "") 1700000000000 "k3x9q"
    (Queue.mkQueue ∅ [] [] 0 Queue.Offline)
    = (inr (Routes.mkRes 400 (Routes.ErrorBody "Image file is required")),
       Queue.mkQueue ∅ [] [] 0 Queue.Offline).
Proof.
  apply (identify_requires_file _ (Routes.mkReq None None (Some "u1") "")). reflexivity.
Defined.

(** ** Enqueueing *)







(** ** Retention *)

Lemma zinsert_elem (score : Z) (member : string) (zs : Queue.zset) (e : Z * string) :
  e ∈ Queue.zinsert score member zs <-> e = (score, member) \/ e ∈ zs.
Proof.
  induction zs as [|[s m] zs IH]; simpl.
  - rewrite list_elem_of_singleton. split; [auto|].
    intros [H|H]; [exact H|apply elem_of_nil in H; contradiction].
  - destruct (_ || _); rewrite !elem_of_cons; [tauto|]. rewrite IH. tauto.
Qed.

Lemma zinsert_sorted (score : Z) (member : string) (zs : Queue.zset) :
  StronglySorted byScore zs -> StronglySorted byScore (Queue.zinsert score member zs).
Proof.
  induction zs as [|[s m] zs IH]; simpl; intros Hsorted.
  - repeat constructor.
  - apply StronglySorted_inv in Hsorted as [Htail Hhead].
    destruct ((score <? s) || ((score =? s) && String.ltb member m)) eqn:Hcmp.
    + assert (Hle : score <= s).
      { apply orb_true_iff in Hcmp as [H|H]; [apply Z.ltb_lt in H; lia|].
        apply andb_true_iff in H as [H _]. apply Z.eqb_eq in H. lia. }
      constructor; [constructor; assumption|].
      constructor; [exact Hle|].
      eapply Forall_impl; [exact Hhead|]. unfold byScore. simpl. intros; lia.
    + assert (Hle : s <= score).
      { apply orb_false_iff in Hcmp as [H _]. apply Z.ltb_ge in H. exact H. }
      constructor; [apply IH; exact Htail|].
      apply Forall_forall. intros e He. apply zinsert_elem in He as [->|He].
      * exact Hle.
      * rewrite Forall_forall in Hhead. apply Hhead. exact He.
Qed.

Lemma filter_sorted (Q : Z * string -> Prop) `{!forall e, Decision (Q e)}
    (zs : Queue.zset) :
  StronglySorted byScore zs -> StronglySorted byScore (filter Q zs).
Proof.
  induction zs as [|e zs IH]; intros Hsorted; [constructor|].
  apply StronglySorted_inv in Hsorted as [Htail Hhead].
  rewrite filter_cons. destruct (decide (Q e)); [|apply IH; exact Htail].
  constructor; [apply IH; exact Htail|].
  apply Forall_forall. intros x Hx. apply list_elem_of_filter in Hx as [_ Hx].
  rewrite Forall_forall in Hhead. apply Hhead. exact Hx.
Qed.

Lemma zadd_sorted (score : Z) (member : string) (zs : Queue.zset) :
  StronglySorted byScore zs -> StronglySorted byScore (Queue.zadd score member zs).
Proof. intros H. apply zinsert_sorted, filter_sorted, H. Qed.

(** What [removeJobsByMaxCount] removes is no newer than what it keeps. *)
Lemma maxCount_oldest_first (c : Z) (zs : Queue.zset) (e : Z * string) :
  StronglySorted byScore zs ->
  e ∈ zs -> e ∉ Queue.removeJobsByMaxCount c zs ->
  (Z.to_nat c < length zs)%nat
  /\ forall k, k ∈ Queue.removeJobsByMaxCount c zs -> e.1 <= k.1.
Proof.
  unfold Queue.removeJobsByMaxCount. intros Hsorted Hin Hout.
  set (n := (length zs - Z.to_nat c)%nat) in *.
  rewrite <- (take_drop n zs) in Hin, Hsorted.
  apply elem_of_app in Hin as [Hin|Hin]; [|contradiction].
  split.
  - destruct n eqn:Hn; [apply elem_of_nil in Hin; contradiction|]. subst n. lia.
  - intros k Hk. exact (StronglySorted_app_1_elem_of byScore _ _ _ _ Hsorted Hin Hk).
Qed.

Lemma maxCount_elem (c : Z) (zs : Queue.zset) (e : Z * string) :
  e ∈ Queue.removeJobsByMaxCount c zs -> e ∈ zs.
Proof.
  unfold Queue.removeJobsByMaxCount. intros H.
  rewrite <- (take_drop (length zs - Z.to_nat c) zs). apply elem_of_app. right. exact H.
Qed.

(** C9. A job of this queue carries the retention policy: completed jobs
    are kept for 3600 seconds and at most 100 of them, failed jobs for
    86400 seconds. When a job finishes at [now] into a finished set ordered
    by finishing time: of the completed set at most 100 jobs stay, each
    finished less than 3600 s ago; a job that goes either finished 3600 s
    ago or more, or more than 100 jobs were there and it is no newer than
    any job that stays; with 100 jobs or fewer every job younger than 3600 s
    stays. Of the failed set exactly the jobs that finished less than
    86400 s ago stay. The jobs removed are those of the set that do not
    stay. *)
Theorem retention_policy (data : Bull.InsectIdentificationJobData (list byte))
    (enqueuedAt : Z) (random : string) (now : Z) (jid : string) (zs : Queue.zset) :
  StronglySorted byScore zs ->
  let o := Bull.opts (enqueued data enqueuedAt random) in
  let zs1 := Queue.zadd now jid zs in
  (Bull.removeOnComplete o = Some (Bull.mkKeep (Some 3600) (Some 100))
   /\ Bull.removeOnFail o = Some (Bull.mkKeep (Some 86400) None))
  /\ (let '(kept, removed) := Queue.retain (Bull.removeOnComplete o) now jid zs in
      (length kept <= 100)%nat
      /\ (forall e, e ∈ kept -> e ∈ zs1 /\ now - e.1 < 3600 * 1000)
      /\ (forall e, e ∈ zs1 -> e ∉ kept ->
            3600 * 1000 <= now - e.1
            \/ ((100 < length zs1)%nat /\ forall k, k ∈ kept -> e.1 <= k.1))
      /\ ((length zs1 <= 100)%nat ->
            forall e, e ∈ zs1 -> now - e.1 < 3600 * 1000 -> e ∈ kept)
      /\ (forall m, m ∈ removed <-> m ∈ Queue.members zs1 /\ m ∉ Queue.members kept))
  /\ (let '(kept, removed) := Queue.retain (Bull.removeOnFail o) now jid zs in
      (forall e, e ∈ kept <-> e ∈ zs1 /\ now - e.1 < 86400 * 1000)
      /\ (forall m, m ∈ removed <-> m ∈ Queue.members zs1 /\ m ∉ Queue.members kept)).
Proof.
  intros Hsorted o zs1. split; [split; reflexivity|].
  assert (Hsorted1 : StronglySorted byScore zs1) by (apply zadd_sorted; exact Hsorted).
  split.
  - simpl. fold zs1.
    set (zs2 := Queue.removeJobsByMaxAge now 3600 zs1).
    assert (Hzs2 : forall e, e ∈ zs2 <-> now - 3600 * 1000 < e.1 /\ e ∈ zs1).
    { intros e. unfold zs2, Queue.removeJobsByMaxAge. rewrite list_elem_of_filter. tauto. }
    assert (Hsorted2 : StronglySorted byScore zs2) by (apply filter_sorted; exact Hsorted1).
    assert (Hlen2 : (length zs2 <= length zs1)%nat) by apply length_filter.
    split; [|split; [|split; [|split]]].
    + unfold Queue.removeJobsByMaxCount. rewrite length_drop.
      change (Z.to_nat 100) with 100%nat. lia.
    + intros e He. apply maxCount_elem, Hzs2 in He as [Hage Hin]. split; [exact Hin|lia].
    + intros e Hin Hout.
      destruct (decide (now - 3600 * 1000 < e.1)) as [Hyoung|Hold]; [|left; lia].
      right. assert (Hin2 : e ∈ zs2) by (apply Hzs2; auto).
      destruct (maxCount_oldest_first 100 zs2 e Hsorted2 Hin2 Hout) as [Hmore Holdest].
      change (Z.to_nat 100) with 100%nat in Hmore. split; [lia|exact Holdest].
    + intros Hfew e Hin Hage. unfold Queue.removeJobsByMaxCount.
      change (Z.to_nat 100) with 100%nat.
      replace (length zs2 - 100)%nat with 0%nat by lia.
      rewrite drop_0. apply Hzs2. split; [lia|exact Hin].
    + intros m. rewrite list_elem_of_filter. tauto.
  - simpl. fold zs1. split.
    + intros e. unfold Queue.removeJobsByMaxAge. rewrite list_elem_of_filter.
      split; intros [? ?]; split; try assumption; lia.
    + intros m. rewrite list_elem_of_filter. tauto.
Qed.

Lemma retention_policy_witness :
  let '(kept, removed) :=
    Queue.retain (Bull.removeOnComplete (Bull.opts (enqueued sample_data 0 "k3x9q")))
      4000000 "c" [(0, "a"); (500000, "b")] in
  kept = [(500000, "b"); (4000000, "c")] /\ removed = ["a"]
  /\ forall e, e ∈ kept -> 4000000 - e.1 < 3600 * 1000.
Proof.
  assert (Hsorted : StronglySorted byScore [(0, "a"); (500000, "b")]).
  { repeat constructor; unfold byScore; simpl; lia. }
  destruct (retention_policy sample_data 0 "k3x9q" 4000000 "c" _ Hsorted)
    as (_ & Hcompleted & _).
  destruct (Queue.retain _ _ _ _) as [kept removed] eqn:Hretain.
  vm_compute in Hretain. injection Hretain as <- <-.
  split; [reflexivity|]. split; [reflexivity|].
  intros e He. apply (proj1 (proj2 Hcompleted)) in He. tauto.
Defined.


